(** * go-hckit: tracing.go

    A shallow embedding of package [hckit] (file [tracing.go]) and the
    properties of its four entry points: [InitGlobalTracer],
    [TracingMiddleware], [InjectHeaders] and [TracingRoundTripper.RoundTrip].

    The package is glue code around collaborators it does not own (the
    OpenTracing API, the Jaeger client, [net/http], [log]).  Every call that
    leaves the package is kept as a call: a Go function becomes a tree of
    such calls ([Go A]), and [run] executes a tree against an arbitrary
    implementation of the collaborators, recording the calls made and the
    answers received.  Theorems quantify over all implementations. *)

From Stdlib Require Import ZArith Ascii String.
From stdpp Require Import base option list strings pretty gmap.

Open Scope string_scope.
Open Scope list_scope.

(** ** [strings] *)

(** [strings.HasPrefix(s, prefix)]: byte-wise comparison. *)
Fixpoint HasPrefix (s prefix : string) {struct prefix} : bool :=
  match prefix, s with
  | EmptyString, _ => true
  | String _ _, EmptyString => false
  | String c prefix', String d s' =>
      if Ascii.eqb c d then HasPrefix s' prefix' else false
  end.

(** [strings.Contains(s, substr)]: [substr] occurs at some offset of [s]. *)
Fixpoint Contains (s substr : string) : bool :=
  HasPrefix s substr ||
  match s with
  | EmptyString => false
  | String _ s' => Contains s' substr
  end.

(** [http.Header] is [map[string][]string]. *)
Abbreviation http_Header := (gmap string (list string)).

(** ** Collaborators

    The types and package-level values of the imported packages that
    [tracing.go] mentions and never looks into. *)
Class External := {
  (** builtin [error], with its [Error()] method *)
  error : Type;
  error_Error : error → string;
  (** the value carried by a [panic] raised in foreign code *)
  PanicPayload : Type;
  (** [opentracing.Tracer], [opentracing.Span], [opentracing.SpanContext] *)
  Tracer : Type;
  Span : Type;
  SpanContext : Type;
  (** [http.Handler], [http.ResponseWriter], [http.RoundTripper],
      [*http.Response] *)
  Handler : Type;
  ResponseWriter : Type;
  RoundTripper : Type;
  Response : Type;
  (** [io.Closer] *)
  Closer : Type;
  (** [jaeger.SamplerTypeConst] *)
  jaeger_SamplerTypeConst : string;
  (** [jaegerlog.Logger] and [jaegerlog.StdLogger] *)
  Logger : Type;
  jaegerlog_StdLogger : Logger;
  (** [metrics.Factory] and [metrics.NullFactory] *)
  Factory : Type;
  metrics_NullFactory : Factory;
  (** the value returned by [zipkin.NewZipkinB3HTTPHeaderPropagator] *)
  Propagator : Type;
  (** the fields of [config.ReporterConfig] and [config.Configuration]
      that [tracing.go] does not touch *)
  ReporterRest : Type;
  ConfigurationRest : Type;
}.

Section Hckit.
Context `{External}.

(** ** Data *)

(** [*url.URL]; only [Path] is read. *)
Record url_URL := mk_URL { Path : string }.

(** [*http.Request]; [Header] is a map, so a callee that writes to it changes
    the request the caller holds.  The embedding returns the changed value. *)
Record http_Request := mk_Request {
  Method : string;
  URL : url_URL;
  Header : http_Header;
}.

Definition set_Header (r : http_Request) (h : http_Header) : http_Request :=
  {| Method := Method r; URL := URL r; Header := h |}.

(** The builtin carrier formats of [opentracing]. *)
Inductive BuiltinFormat := Binary | TextMap | HTTPHeaders.

(** [opentracing.HTTPHeadersCarrier(h)] is a type conversion: the carrier is
    the header map itself. *)
Definition HTTPHeadersCarrier (h : http_Header) : http_Header := h.

(** [opentracing.StartSpanOption]; the source builds them with
    [ext.RPCServerOption] only.  A nil interface value is [None]. *)
Inductive StartSpanOption :=
| ext_RPCServerOption (client : option SpanContext).

(** The parent that a list of options gives to the span being started:
    [ext.RPCServerOption(c)] makes the span a child of [c] unless [c] is nil
    (line 70: if the context is nil a root span is created). *)
Fixpoint parent_of (opts : list StartSpanOption) : option SpanContext :=
  match opts with
  | [] => None
  | ext_RPCServerOption (Some c) :: _ => Some c
  | ext_RPCServerOption None :: opts' => parent_of opts'
  end.

Definition is_root (opts : list StartSpanOption) : Prop := parent_of opts = None.

(** [otlog.Field], built with [otlog.String]. *)
Inductive otlog_Field :=
| otlog_String (key val : string).

(** The [interface{}] arguments handed to [log.Printf]. *)
Inductive LogArg :=
| arg_string (s : string)
| arg_error (e : error)
| arg_SpanContext (c : SpanContext).

(** [config.SamplerConfig]: the two fields the literal at line 26 sets; the
    others keep their zero value.  [Param] is a [float64]; the source only
    writes the constant 1. *)
Record config_SamplerConfig := mk_SamplerConfig {
  Type_ : string;
  Param : Z;
}.

(** [config.ReporterConfig]. *)
Record config_ReporterConfig := mk_ReporterConfig {
  LogSpans : bool;
  reporter_rest : ReporterRest;
}.

(** [config.Configuration].  [Sampler] and [Reporter] are pointers. *)
Record config_Configuration := mk_Configuration {
  Sampler : option config_SamplerConfig;
  Reporter : option config_ReporterConfig;
  configuration_rest : ConfigurationRest;
}.

(** [config.Option], as built by the constructors used at lines 41 to 45. *)
Inductive config_Option :=
| config_Logger (l : Logger)
| config_Metrics (f : Factory)
| config_Injector (format : BuiltinFormat) (p : Propagator)
| config_Extractor (format : BuiltinFormat) (p : Propagator)
| config_ZipkinSharedRPCSpan (b : bool).

(** What a [panic] carries: a run-time error of the package's own code, or
    a value raised by foreign code. *)
Inductive PanicValue :=
| nil_pointer_dereference
| panic_value (v : PanicPayload).

(** The result of a foreign call that may panic. *)
Inductive CallResult (X : Type) :=
| Returned (x : X)
| Panicked (v : PanicValue).
#[global] Arguments Returned {X} x.
#[global] Arguments Panicked {X} v.

(** ** Calls that leave the package

    [Ext X] is a call whose answer has type [X].  The tracer, span, logger
    and configuration calls answer with their Go results; [ServeHTTP] and
    [RoundTrip] run arbitrary user code and may panic.  What a callee does
    inside (a handler writing its response, or tracing on its own account) is
    part of its answer and of the state it leaves, not a call of this
    package.  [Inject] writes to the carrier it is given, so its answer holds
    the carrier as it left it; [Extract] only reads its carrier, and a
    handler is taken not to change the request it is given, as [net/http]
    asks of handlers. *)
Inductive Ext : Type → Type :=
| log_Printf (format : string) (v : list LogArg) : Ext unit
| log_Print (v : string) : Ext unit
| opentracing_GlobalTracer : Ext Tracer
| Tracer_Extract (t : Tracer) (format : BuiltinFormat) (carrier : http_Header)
    : Ext (option SpanContext * option error)
| Tracer_StartSpan (t : Tracer) (operationName : string)
    (opts : list StartSpanOption) : Ext Span
| Tracer_Inject (t : Tracer) (sm : SpanContext) (format : BuiltinFormat)
    (carrier : http_Header) : Ext (http_Header * option error)
| Span_Finish (sp : Span) : Ext unit
| Span_LogFields (sp : Span) (fields : list otlog_Field) : Ext unit
| Span_Context (sp : Span) : Ext SpanContext
| Span_Tracer (sp : Span) : Ext Tracer
| ext_SpanKindRPCClient_Set (sp : Span) : Ext unit
| ext_HTTPUrl_Set (sp : Span) (value : string) : Ext unit
| ext_HTTPMethod_Set (sp : Span) (value : string) : Ext unit
| Handler_ServeHTTP (h : Handler) (w : ResponseWriter) (r : http_Request)
    : Ext (CallResult unit)
| RoundTripper_RoundTrip (t : RoundTripper) (r : http_Request)
    : Ext (CallResult (option Response * option error))
| config_FromEnv : Ext (option config_Configuration * option error)
| zipkin_NewZipkinB3HTTPHeaderPropagator : Ext Propagator
| Configuration_InitGlobalTracer (cfg : config_Configuration)
    (service : string) (options : list config_Option)
    : Ext (option Closer * option error).

(** ** Go function bodies *)

Inductive Go (A : Type) : Type :=
| Ret (a : A)
| Panic (v : PanicValue)
| Call (X : Type) (c : Ext X) (k : X → Go A).
#[global] Arguments Ret {A} a.
#[global] Arguments Panic {A} v.
#[global] Arguments Call {A X} c k.

Fixpoint Go_bind {A B} (k : A → Go B) (m : Go A) : Go B :=
  match m with
  | Ret a => k a
  | Panic v => Panic v
  | Call c k' => Call c (λ x, Go_bind k (k' x))
  end.

#[global] Instance Go_ret : MRet Go := λ A a, Ret a.
#[global] Instance Go_mbind : MBind Go := λ A B k m, Go_bind k m.

(** A call that cannot panic. *)
Definition call {X} (c : Ext X) : Go X := Call c Ret.

(** A call into user code: a panic in the callee unwinds into the caller. *)
Definition invoke {X} (c : Ext (CallResult X)) : Go X :=
  Call c (λ res, match res with
                 | Returned x => Ret x
                 | Panicked v => Panic v
                 end).

(** [defer d] followed by [body]: [d] runs when [body] is left, by return or
    by panic; the panic then goes on unwinding. *)
Fixpoint defer {A} (d : Go unit) (body : Go A) : Go A :=
  match body with
  | Ret a => Go_bind (λ _, Ret a) d
  | Panic v => Go_bind (λ _, Panic v) d
  | Call c k => Call c (λ x, defer d (k x))
  end.

(** ** Running a body *)

(** An implementation of the collaborators: a state and, for every call, an
    answer and a new state. *)
Record Impl := mk_Impl {
  St : Type;
  answer : ∀ X, Ext X → St → X * St;
}.
#[global] Arguments answer i {X} c s.

(** A call together with the answer it got. *)
Inductive Event := Ev (X : Type) (c : Ext X) (x : X).
#[global] Arguments Ev {X} c x.

Inductive Outcome (A : Type) :=
| Returns (a : A)
| Panics (v : PanicValue).
#[global] Arguments Returns {A} a.
#[global] Arguments Panics {A} v.

Definition outcome_of {X} (res : CallResult X) : Outcome X :=
  match res with
  | Returned x => Returns x
  | Panicked v => Panics v
  end.

Fixpoint run {A} (I : Impl) (p : Go A) (s : St I)
  : Outcome A * St I * list Event :=
  match p with
  | Ret a => (Returns a, s, [])
  | Panic v => (Panics v, s, [])
  | Call c k =>
      let '(x, s1) := answer I c s in
      let '(o, s2, tr) := run I (k x) s1 in
      (o, s2, Ev c x :: tr)
  end.

(** Reading through a pointer: a nil pointer is a run-time panic. *)
Definition deref {A} (p : option A) : Go A :=
  match p with
  | Some a => Ret a
  | None => Panic nil_pointer_dereference
  end.

(** ** [tracing.go] *)

Definition set_Sampler (cfg : config_Configuration)
    (sc : option config_SamplerConfig) : config_Configuration :=
  {| Sampler := sc; Reporter := Reporter cfg;
     configuration_rest := configuration_rest cfg |}.

Definition set_Reporter (cfg : config_Configuration)
    (rc : option config_ReporterConfig) : config_Configuration :=
  {| Sampler := Sampler cfg; Reporter := rc;
     configuration_rest := configuration_rest cfg |}.

Definition set_LogSpans (rc : config_ReporterConfig) (b : bool)
    : config_ReporterConfig :=
  {| LogSpans := b; reporter_rest := reporter_rest rc |}.

(** [func InitGlobalTracer(service string) (io.Closer, error)], lines 21-54.
    The [err] of line 23 is read nowhere: line 39 assigns it again. *)
Definition InitGlobalTracer (service : string)
    : Go (option Closer * option error) :=
  '(cfg, err) ← call config_FromEnv;
  cfg ← deref cfg;
  let cfg := set_Sampler cfg
    (Some {| Type_ := jaeger_SamplerTypeConst; Param := 1 |}) in
  reporter ← deref (Reporter cfg);
  let cfg := set_Reporter cfg (Some (set_LogSpans reporter true)) in
  let jLogger := jaegerlog_StdLogger in
  let jMetricsFactory := metrics_NullFactory in
  zipkinPropagator ← call zipkin_NewZipkinB3HTTPHeaderPropagator;
  '(closer, err) ← call (Configuration_InitGlobalTracer cfg service
    [ config_Logger jLogger;
      config_Metrics jMetricsFactory;
      config_Injector HTTPHeaders zipkinPropagator;
      config_Extractor HTTPHeaders zipkinPropagator;
      config_ZipkinSharedRPCSpan true ]);
  match err with
  | Some e =>
      call (log_Printf "Could not initialize jaeger tracer: %s"
              [arg_string (error_Error e)]);;
      mret (closer, Some e)
  | None => mret (closer, None)
  end.

(** [http.HandlerFunc]: a handler given by a function of this package. *)
Definition http_HandlerFunc : Type := ResponseWriter → http_Request → Go unit.

Definition newline : string := String "010"%char EmptyString.

(** [func TracingMiddleware(next http.Handler) http.Handler], lines 57-98. *)
Definition TracingMiddleware (next : Handler) : http_HandlerFunc :=
  λ w r,
  if Contains (Path (URL r)) "health" then
    invoke (Handler_ServeHTTP next w r)
  else
    call (log_Printf
      "INFO: TracingMiddleware beginning for %s---------------------------"
      [arg_string (Path (URL r))]);;
    tracer ← call opentracing_GlobalTracer;
    '(wireContext, err) ←
      call (Tracer_Extract tracer HTTPHeaders (HTTPHeadersCarrier (Header r)));
    match err with
    | Some e =>
        call (log_Printf
          ("WARN: Extract failed, error recieved." +:+ newline +:+ "%v" +:+ newline)
          [arg_error e])
    | None => mret tt
    end;;
    match wireContext with
    | Some c => call (log_Printf "INFO: WireContext is %v" [arg_SpanContext c])
    | None => mret tt
    end;;
    span ← call (Tracer_StartSpan tracer (Path (URL r))
                   [ext_RPCServerOption wireContext]);
    defer (call (Span_Finish span)) (
      call (Span_LogFields span
        [otlog_String "event" (Path (URL r)); otlog_String "value" "start"]);;
      invoke (Handler_ServeHTTP next w r);;
      call (Span_LogFields span
        [otlog_String "event" (Path (URL r)); otlog_String "value" "finish"]);;
      call (log_Print
        "INFO: TracingMiddleware complete----------------------------------------------");;
      mret tt).

(** [func InjectHeaders(r *http.Request)], lines 102-116.  The request is
    changed in place; the embedding returns it.  The error that [Inject]
    returns is dropped, as in the source. *)
Definition InjectHeaders (r : http_Request) : Go http_Request :=
  tracer ← call opentracing_GlobalTracer;
  span ← call (Tracer_StartSpan tracer (Path (URL r)) []);
  defer (call (Span_Finish span)) (
    ctx ← call (Span_Context span);
    call (log_Printf "INFO: span.Context is %v" [arg_SpanContext ctx]);;
    call (ext_SpanKindRPCClient_Set span);;
    call (ext_HTTPUrl_Set span (Path (URL r)));;
    call (ext_HTTPMethod_Set span (Method r));;
    t ← call (Span_Tracer span);
    ctx ← call (Span_Context span);
    '(carrier, _) ←
      call (Tracer_Inject t ctx HTTPHeaders (HTTPHeadersCarrier (Header r)));
    mret (set_Header r carrier)).

(** [type TracingRoundTripper struct { Proxied http.RoundTripper }] *)
Record TracingRoundTripper := mk_TracingRoundTripper {
  Proxied : RoundTripper;
}.

(** [func (trt TracingRoundTripper) RoundTrip(req *http.Request)
    (res *http.Response, e error)], lines 125-129. *)
Definition RoundTrip (trt : TracingRoundTripper) (req : http_Request)
    : Go (option Response * option error) :=
  call (log_Print "INFO: TracingRoundTripper.RountTrip injecting headers");;
  req ← InjectHeaders req;
  invoke (RoundTripper_RoundTrip (Proxied trt) req).

(** The format strings of lines 49, 73 and 126, named for the statements
    below. *)
Definition Could_not_initialize : string :=
  "Could not initialize jaeger tracer: %s".

Definition WARN_Extract_failed : string :=
  "WARN: Extract failed, error recieved." +:+ newline +:+ "%v" +:+ newline.

Definition INFO_injecting_headers : string :=
  "INFO: TracingRoundTripper.RountTrip injecting headers".

(** The parts of a run. *)
Definition outcome {A} (I : Impl) (p : Go A) (s : St I) : Outcome A :=
  (run I p s).1.1.
Definition final {A} (I : Impl) (p : Go A) (s : St I) : St I :=
  (run I p s).1.2.
Definition trace {A} (I : Impl) (p : Go A) (s : St I) : list Event :=
  (run I p s).2.

(** ** Reading a trace *)

(** Spans started: operation name, options and the span handed back. *)
Definition starts_of (e : Event)
    : list (string * list StartSpanOption * Span) :=
  match e with
  | Ev c x =>
      match c in Ext X return X → list (string * list StartSpanOption * Span) with
      | Tracer_StartSpan _ name opts => λ sp, [(name, opts, sp)]
      | _ => λ _, []
      end x
  end.
Definition span_starts (tr : list Event) := flat_map starts_of tr.

(** Spans finished. *)
Definition finishes_of (e : Event) : list Span :=
  match e with
  | Ev c _ =>
      match c with
      | Span_Finish sp => [sp]
      | _ => []
      end
  end.
Definition span_finishes (tr : list Event) := flat_map finishes_of tr.

(** Extractions: format, carrier and the pair handed back. *)
Definition extractions_of (e : Event)
    : list (BuiltinFormat * http_Header * (option SpanContext * option error)) :=
  match e with
  | Ev c x =>
      match c in Ext X
        return X → list (BuiltinFormat * http_Header *
                         (option SpanContext * option error)) with
      | Tracer_Extract _ format carrier => λ res, [(format, carrier, res)]
      | _ => λ _, []
      end x
  end.
Definition extractions (tr : list Event) := flat_map extractions_of tr.

(** Handler invocations, with their arguments and how they ended. *)
Definition served_of (e : Event)
    : list (Handler * ResponseWriter * http_Request * CallResult unit) :=
  match e with
  | Ev c x =>
      match c in Ext X
        return X → list (Handler * ResponseWriter * http_Request *
                         CallResult unit) with
      | Handler_ServeHTTP h w r => λ res, [(h, w, r, res)]
      | _ => λ _, []
      end x
  end.
Definition served (tr : list Event) := flat_map served_of tr.

(** Transport invocations. *)
Definition round_trips_of (e : Event)
    : list (RoundTripper * http_Request *
            CallResult (option Response * option error)) :=
  match e with
  | Ev c x =>
      match c in Ext X
        return X → list (RoundTripper * http_Request *
                         CallResult (option Response * option error)) with
      | RoundTripper_RoundTrip t r => λ res, [(t, r, res)]
      | _ => λ _, []
      end x
  end.
Definition round_trips (tr : list Event) := flat_map round_trips_of tr.

(** Lines handed to [log.Printf]. *)
Definition printfs_of (e : Event) : list (string * list LogArg) :=
  match e with
  | Ev c _ =>
      match c with
      | log_Printf format v => [(format, v)]
      | _ => []
      end
  end.
Definition printfs (tr : list Event) := flat_map printfs_of tr.

(** Tracers built and installed by [cfg.InitGlobalTracer]. *)
Definition tracer_inits_of (e : Event)
    : list (config_Configuration * string * list config_Option) :=
  match e with
  | Ev c _ =>
      match c with
      | Configuration_InitGlobalTracer cfg service options =>
          [(cfg, service, options)]
      | _ => []
      end
  end.
Definition tracer_inits (tr : list Event) := flat_map tracer_inits_of tr.

(** Calls that create spans, emit trace data or write log lines, as opposed
    to calls into the application ([ServeHTTP], [RoundTrip]) and into the
    tracer configuration. *)
Definition instrumentation {X} (c : Ext X) : bool :=
  match c with
  | Handler_ServeHTTP _ _ _ => false
  | RoundTripper_RoundTrip _ _ => false
  | config_FromEnv => false
  | zipkin_NewZipkinB3HTTPHeaderPropagator => false
  | Configuration_InitGlobalTracer _ _ _ => false
  | _ => true
  end.

Definition application_event (e : Event) : bool :=
  match e with Ev c _ => negb (instrumentation c) end.

(** A trace with the instrumentation calls left out. *)
Definition application_calls (tr : list Event) : list Event :=
  List.filter application_event tr.

(** Fields logged on spans with [LogFields]. *)
Definition log_fields_of (e : Event) : list (Span * list otlog_Field) :=
  match e with
  | Ev c _ =>
      match c with
      | Span_LogFields sp fields => [(sp, fields)]
      | _ => []
      end
  end.
Definition span_log_fields (tr : list Event) := flat_map log_fields_of tr.

(** Lines handed to [log.Print]. *)
Definition prints_of (e : Event) : list string :=
  match e with
  | Ev c _ =>
      match c with
      | log_Print v => [v]
      | _ => []
      end
  end.
Definition prints (tr : list Event) := flat_map prints_of tr.

(** Injections: tracer, context, format, the carrier as given, and the
    carrier and error handed back. *)
Definition injections_of (e : Event)
    : list (Tracer * SpanContext * BuiltinFormat * http_Header *
            (http_Header * option error)) :=
  match e with
  | Ev c x =>
      match c in Ext X
        return X → list (Tracer * SpanContext * BuiltinFormat * http_Header *
                         (http_Header * option error)) with
      | Tracer_Inject t sm format carrier =>
          λ res, [(t, sm, format, carrier, res)]
      | _ => λ _, []
      end x
  end.
Definition injections (tr : list Event) := flat_map injections_of tr.

(** The format strings of lines 66, 77, 94 and 106. *)
Definition INFO_beginning : string :=
  "INFO: TracingMiddleware beginning for %s---------------------------".

Definition INFO_WireContext : string := "INFO: WireContext is %v".

Definition INFO_complete : string :=
  "INFO: TracingMiddleware complete----------------------------------------------".

Definition INFO_span_Context : string := "INFO: span.Context is %v".

End Hckit.

(** ** A recording implementation

    A small tracer, handler and transport in the manner of a test double:
    spans get consecutive identifiers, trace context travels in B3 headers,
    a handler either writes a response or panics. *)
Module Mock.

Inductive handler :=
| respond (status : Z) (body : string)
| crash (reason : string).

Inductive transport :=
| reply (status : Z)
| refuse (reason : string).

#[local] Instance external : External := {|
  error := string;
  error_Error := λ e, e;
  PanicPayload := string;
  Tracer := unit;
  Span := string * string;
  SpanContext := string * string;
  Handler := handler;
  ResponseWriter := nat;
  RoundTripper := transport;
  Response := Z;
  Closer := unit;
  jaeger_SamplerTypeConst := "const";
  Logger := unit;
  jaegerlog_StdLogger := tt;
  Factory := unit;
  metrics_NullFactory := tt;
  Propagator := unit;
  ReporterRest := unit;
  ConfigurationRest := unit;
|}.

Record state := mk_state {
  next_id : nat;
  environment : option config_Configuration * option string;
  written : list (nat * Z * string);
}.

Definition fresh (s : state) : state :=
  {| next_id := S (next_id s); environment := environment s;
     written := written s |}.

Definition write (s : state) (w : nat) (status : Z) (body : string) : state :=
  {| next_id := next_id s; environment := environment s;
     written := written s ++ [(w, status, body)] |}.

Definition extract (carrier : http_Header)
    : option (string * string) * option string :=
  match carrier !! "X-B3-Traceid", carrier !! "X-B3-Spanid" with
  | Some [traceid], Some [spanid] => (Some (traceid, spanid), None)
  | _, _ => (None, Some "opentracing: SpanContext not found in Extract carrier")
  end.

Definition inject (sm : string * string) (carrier : http_Header) : http_Header :=
  <["X-B3-Traceid" := [sm.1]]> (<["X-B3-Spanid" := [sm.2]]>
    (<["X-B3-Sampled" := ["1"]]> carrier)).

Definition start (s : state) (opts : list StartSpanOption) : string * string :=
  let id := pretty (next_id s) in
  match parent_of opts with
  | Some parent => (parent.1, id)
  | None => (id, id)
  end.

Definition answers (X : Type) (c : Ext X) (s : state) : X * state :=
  match c in Ext X return X * state with
  | log_Printf _ _ => (tt, s)
  | log_Print _ => (tt, s)
  | opentracing_GlobalTracer => (tt, s)
  | Tracer_Extract _ _ carrier => (extract carrier, s)
  | Tracer_StartSpan _ _ opts => (start s opts, fresh s)
  | Tracer_Inject _ sm _ carrier => ((inject sm carrier, None), s)
  | Span_Finish _ => (tt, s)
  | Span_LogFields _ _ => (tt, s)
  | Span_Context sp => (sp, s)
  | Span_Tracer _ => (tt, s)
  | ext_SpanKindRPCClient_Set _ => (tt, s)
  | ext_HTTPUrl_Set _ _ => (tt, s)
  | ext_HTTPMethod_Set _ _ => (tt, s)
  | Handler_ServeHTTP h w _ =>
      match h with
      | respond status body => (Returned tt, write s w status body)
      | crash reason => (Panicked (panic_value reason), s)
      end
  | RoundTripper_RoundTrip t _ =>
      match t with
      | reply status => (Returned (Some status, None), s)
      | refuse reason => (Returned (None, Some reason), s)
      end
  | config_FromEnv => (environment s, s)
  | zipkin_NewZipkinB3HTTPHeaderPropagator => (tt, s)
  | Configuration_InitGlobalTracer _ service _ =>
      if decide (service = "") then ((None, Some "no service name provided"), s)
      else ((Some tt, None), s)
  end.

Definition impl : Impl := {| St := state; answer := answers |}.

(** A configuration as [config.FromEnv] builds it for an empty environment. *)
Definition loaded_reporter : config_ReporterConfig :=
  {| LogSpans := false; reporter_rest := tt |}.

Definition loaded : config_Configuration :=
  {| Sampler := Some {| Type_ := "remote"; Param := 0 |};
     Reporter := Some loaded_reporter;
     configuration_rest := tt |}.

Definition boot : state :=
  {| next_id := 1; environment := (Some loaded, None); written := [] |}.

(** The state of a process whose environment does not parse. *)
Definition broken_environment : state :=
  {| next_id := 1;
     environment := (None, Some "cannot parse env var JAEGER_RPC_METRICS=maybe");
     written := [] |}.

Definition request (method path : string) (h : http_Header) : http_Request :=
  {| Method := method; URL := {| Path := path |}; Header := h |}.

(** The requests of the scenarios. *)
Definition health_live : http_Request := request "GET" "/health/live" ∅.
Definition orders_42 : http_Request := request "GET" "/orders/42" ∅.
Definition payments_charge : http_Request :=
  request "POST" "/payments/charge" ∅.

End Mock.

(** ** A tracer that cannot inject

    The recording implementation, except that [Inject] fails and leaves the
    carrier as it found it, and that [Extract], when it finds no context,
    hands back an empty context along with its error. *)
Module Faulty.
#[local] Existing Instance Mock.external.

Definition unsupported : string :=
  "opentracing: Unknown or unsupported Inject/Extract format".

Definition answers (X : Type) (c : Ext X) (s : Mock.state) : X * Mock.state :=
  match c in Ext X return X * Mock.state with
  | Tracer_Inject _ _ _ carrier => ((carrier, Some unsupported), s)
  | Tracer_Extract _ _ carrier =>
      match Mock.extract carrier with
      | (Some c, e) => ((Some c, e), s)
      | (None, e) => ((Some ("0", "0"), e), s)
      end
  | c' => Mock.answers _ c' s
  end.

Definition impl : Impl := {| St := Mock.state; answer := answers |}.

End Faulty.

(** ** More inputs for the scenarios *)
Module Inputs.
#[local] Existing Instance Mock.external.

(** A request that arrives with the B3 headers of the context [a1/b2]. *)
Definition orders_42_from_a1 : http_Request :=
  Mock.request "GET" "/orders/42" (Mock.inject ("a1", "b2") ∅).

(** What [Mock.crash "boom"] panics with. *)
Definition boom : PanicValue := panic_value "boom".

End Inputs.

(** ** Properties *)

Section Strings.

Local Lemma append_cons (c : ascii) (s t : string) :
  String c s +:+ t = String c (s +:+ t).
Proof. reflexivity. Qed.

Lemma HasPrefix_spec (s prefix : string) :
  HasPrefix s prefix = true ↔ ∃ rest, s = prefix +:+ rest.
Proof.
  revert s; induction prefix as [|c prefix IH]; intros s; simpl.
  - split; [intros _; by exists s | done].
  - destruct s as [|d s]; simpl.
    + split; [done | by intros [rest ?]].
    + setoid_rewrite append_cons.
      destruct (Ascii.eqb c d) eqn:E.
      * apply Ascii.eqb_eq in E as ->. rewrite IH.
        split; intros [rest Hr]; exists rest; congruence.
      * apply Ascii.eqb_neq in E.
        split; [done | intros [rest Hr]; congruence].
Qed.

(** [Contains] is the substring test. *)
Lemma Contains_spec (s substr : string) :
  Contains s substr = true ↔ ∃ before after, s = before +:+ substr +:+ after.
Proof.
  induction s as [|c s IH]; simpl.
  - rewrite orb_false_r, HasPrefix_spec. split.
    + intros [rest Hr]. by exists "", rest.
    + intros [[|? before] [after Hr]]; [by exists after | done].
  - rewrite orb_true_iff, HasPrefix_spec, IH. split.
    + intros [[rest Hr] | (before & after & Hr)].
      * by exists "", rest.
      * exists (String c before), after. rewrite append_cons. by rewrite Hr.
    + intros [[|d before] [after Hr]].
      * left. by exists after.
      * right. exists before, after. rewrite append_cons in Hr. congruence.
Qed.

End Strings.

Section Properties.
Context `{External}.

(** *** The combinators *)

(** Sequencing: the second part runs in the state the first part left, unless
    the first part panicked. *)
Lemma run_bind {A B} (I : Impl) (m : Go A) (k : A → Go B) (s : St I) :
  run I (m ≫= k) s =
  match run I m s with
  | (Returns a, s1, tr1) =>
      let '(o, s2, tr2) := run I (k a) s1 in (o, s2, tr1 ++ tr2)
  | (Panics v, s1, tr1) => (Panics v, s1, tr1)
  end.
Proof.
  revert s. induction m as [a|v|X c k' IH]; intros s; cbn.
  - by destruct (run I (k a) s) as [[o s2] tr2].
  - done.
  - destruct (answer I c s) as [x s1].
    change (Go_bind k (k' x)) with (k' x ≫= k). rewrite IH.
    by destruct (run I (k' x) s1) as [[[a|v] s2] tr1];
      [destruct (run I (k a) s2) as [[o s3] tr2]|].
Qed.

(** A deferred call runs when the body returns and when it panics; a panic
    of the body goes on after it. *)
Lemma run_defer {A} (I : Impl) (d : Go unit) (body : Go A) (s : St I) :
  run I (defer d body) s =
  let '(o, s1, tr1) := run I body s in
  let '(od, s2, tr2) := run I d s1 in
  (match od with Returns _ => o | Panics v => Panics v end, s2, tr1 ++ tr2).
Proof.
  revert s. induction body as [a|v|X c k IH]; intros s; cbn.
  - change (Go_bind ?f d) with (d ≫= f). rewrite run_bind.
    by destruct (run I d s) as [[[[]|v] s2] tr2]; cbn; rewrite ?app_nil_r.
  - change (Go_bind ?f d) with (d ≫= f). rewrite run_bind.
    by destruct (run I d s) as [[[[]|v'] s2] tr2]; cbn; rewrite ?app_nil_r.
  - destruct (answer I c s) as [x s1]. rewrite IH.
    destruct (run I (k x) s1) as [[o s2] tr1].
    by destruct (run I d s2) as [[od s3] tr2].
Qed.

(** One step of a run: name the answer of the next call. *)
Ltac answer_step :=
  match goal with
  | |- context [answer ?I ?c ?s] =>
      let x := fresh "x" in
      let s' := fresh "s" in
      let E := fresh "E" in
      destruct (answer I c s) as [x s'] eqn:E; cbn
  end.

(** C1: a request whose path contains "health" goes straight to the wrapped
    handler: the middleware is the handler call itself, it starts no span
    and makes no other call, and the run (outcome, state left behind, calls
    made) is that of the unwrapped handler. *)
Theorem TracingMiddleware_health_bypass
    (next : Handler) (w : ResponseWriter) (r : http_Request) :
  Contains (Path (URL r)) "health" = true →
  TracingMiddleware next w r = invoke (Handler_ServeHTTP next w r) ∧
  ∀ (I : Impl) (s : St I),
    run I (TracingMiddleware next w r) s =
      run I (invoke (Handler_ServeHTTP next w r)) s ∧
    trace I (TracingMiddleware next w r) s =
      [Ev (Handler_ServeHTTP next w r)
          (answer I (Handler_ServeHTTP next w r) s).1] ∧
    span_starts (trace I (TracingMiddleware next w r) s) = [] ∧
    span_finishes (trace I (TracingMiddleware next w r) s) = [].
Proof.
  intros Hhealth. unfold TracingMiddleware. rewrite Hhealth.
  split; [done|]. intros I s. split; [done|].
  unfold trace. cbn. answer_step. by destruct x.
Qed.

(** *** [TracingMiddleware], traced requests *)

(** Stepping a run of the traced branch: rewrite the path test, then name the
    answers one call at a time, splitting on the error, the context and the
    way the handler ended. *)
Ltac traced_branch Hpath :=
  unfold outcome, final, trace, TracingMiddleware; rewrite Hpath; cbn;
  do 3 answer_step;
  repeat match goal with
         | x : (option _ * option _)%type |- _ => destruct x as [[?|] [?|]]; cbn
         end;
  repeat answer_step;
  repeat match goal with
         | x : unit |- _ => destruct x
         | x : CallResult unit |- _ => destruct x as [[]|?]; cbn
         end;
  repeat answer_step;
  repeat match goal with x : unit |- _ => destruct x end.

(** C2: on a request whose path does not contain "health" the middleware
    starts exactly one span and finishes exactly that span, once, as its
    last call, however the wrapped handler ends (by returning, whatever it
    wrote, or by panicking); it calls the handler once and ends the way the
    handler ended. *)
Theorem TracingMiddleware_one_span
    (I : Impl) (s : St I)
    (next : Handler) (w : ResponseWriter) (r : http_Request) :
  Contains (Path (URL r)) "health" = false →
  ∃ (opts : list StartSpanOption) (sp : Span) (res : CallResult unit),
    span_starts (trace I (TracingMiddleware next w r) s) =
      [(Path (URL r), opts, sp)] ∧
    span_finishes (trace I (TracingMiddleware next w r) s) = [sp] ∧
    last (trace I (TracingMiddleware next w r) s) =
      Some (Ev (Span_Finish sp) ()) ∧
    served (trace I (TracingMiddleware next w r) s) = [(next, w, r, res)] ∧
    outcome I (TracingMiddleware next w r) s = outcome_of res.
Proof.
  intros Hpath. traced_branch Hpath; eauto 10.
Qed.

(** The parent of the server span is whatever context [Extract] handed back,
    whether or not it also handed back an error. *)
Lemma TracingMiddleware_parent
    (I : Impl) (s : St I)
    (next : Handler) (w : ResponseWriter) (r : http_Request) :
  Contains (Path (URL r)) "health" = false →
  ∃ (wireContext : option SpanContext) (err : option error) (sp : Span),
    extractions (trace I (TracingMiddleware next w r) s) =
      [(HTTPHeaders, Header r, (wireContext, err))] ∧
    span_starts (trace I (TracingMiddleware next w r) s) =
      [(Path (URL r), [ext_RPCServerOption wireContext], sp)].
Proof.
  intros Hpath. traced_branch Hpath; eauto 10.
Qed.


(** C9: on a request whose path does not contain "health", once the calls
    that create the span, emit trace data and write log lines are left out,
    what remains of the middleware's run is one call of the wrapped handler
    with the response writer and the request it was given, and the
    middleware ends the way that call ended. *)
Theorem TracingMiddleware_frame
    (I : Impl) (s : St I)
    (next : Handler) (w : ResponseWriter) (r : http_Request) :
  Contains (Path (URL r)) "health" = false →
  ∃ res : CallResult unit,
    application_calls (trace I (TracingMiddleware next w r) s) =
      [Ev (Handler_ServeHTTP next w r) res] ∧
    served (trace I (TracingMiddleware next w r) s) = [(next, w, r, res)] ∧
    outcome I (TracingMiddleware next w r) s = outcome_of res.
Proof.
  intros Hpath. traced_branch Hpath; eauto 10.
Qed.

(** *** [InjectHeaders] and [RoundTrip] *)

Ltac run_to_end :=
  unfold outcome, final, trace; cbn;
  repeat (answer_step;
          repeat match goal with
                 | x : unit |- _ => destruct x; cbn
                 | x : (_ * _)%type |- _ => destruct x; cbn
                 end).


(** C10: the one span that [InjectHeaders] starts is started with an empty
    list of options, whatever headers the request carries and whatever the
    state of the tracer (spans in flight included): it has no parent. *)
Theorem InjectHeaders_root_span
    (I : Impl) (s : St I) (r : http_Request) :
  ∃ sp : Span,
    span_starts (trace I (InjectHeaders r) s) = [(Path (URL r), [], sp)] ∧
    is_root [] ∧
    extractions (trace I (InjectHeaders r) s) = [].
Proof.
  run_to_end. eexists. repeat split; reflexivity.
Qed.

(** C5: [RoundTrip] writes its log line, runs [InjectHeaders] on the
    request, and then calls the wrapped transport once, last, on the request
    [InjectHeaders] left; it ends the way that call ended, with the response
    and the error of the transport as they were handed back (or its panic),
    in the state the transport left. *)
Theorem RoundTrip_delegates
    (I : Impl) (s : St I) (trt : TracingRoundTripper) (req : http_Request) :
  ∃ (req' : http_Request)
    (res : CallResult (option Response * option error)),
    let s0 := (answer I (log_Print INFO_injecting_headers) s).2 in
    let s1 := final I (InjectHeaders req) s0 in
    outcome I (InjectHeaders req) s0 = Returns req' ∧
    answer I (RoundTripper_RoundTrip (Proxied trt) req') s1 =
      (res, final I (RoundTrip trt req) s) ∧
    trace I (RoundTrip trt req) s =
      Ev (log_Print INFO_injecting_headers) () ::
      trace I (InjectHeaders req) s0 ++
      [Ev (RoundTripper_RoundTrip (Proxied trt) req') res] ∧
    round_trips (trace I (RoundTrip trt req) s) = [(Proxied trt, req', res)] ∧
    outcome I (RoundTrip trt req) s = outcome_of res.
Proof.
  unfold RoundTrip, INFO_injecting_headers, outcome, final, trace; cbn.
  destruct (answer I (log_Print _) s) as [[] s0]; cbn.
  run_to_end.
  repeat match goal with x : CallResult _ |- _ => destruct x; cbn end;
    eauto 10.
Qed.

(** *** [InitGlobalTracer] *)

(** C7: whatever configuration [config.FromEnv] loads, the one handed to
    [cfg.InitGlobalTracer] (the call that builds the tracer and installs it
    as the global one) has a constant sampler with parameter 1 and a reporter
    that logs spans, the rest being as loaded; the options register one and
    the same Zipkin B3 propagator as injector and as extractor for the
    HTTP-headers format and switch the shared RPC span on.  That call is made
    once. *)
Theorem InitGlobalTracer_overrides
    (I : Impl) (s : St I) (service : string)
    (cfg : config_Configuration) (reporter : config_ReporterConfig)
    (err : option error) :
  (answer I config_FromEnv s).1 = (Some cfg, err) →
  Reporter cfg = Some reporter →
  ∃ zipkinPropagator : Propagator,
    tracer_inits (trace I (InitGlobalTracer service) s) =
      [ ( {| Sampler :=
               Some {| Type_ := jaeger_SamplerTypeConst; Param := 1 |};
             Reporter :=
               Some {| LogSpans := true;
                       reporter_rest := reporter_rest reporter |};
             configuration_rest := configuration_rest cfg |},
          service,
          [ config_Logger jaegerlog_StdLogger;
            config_Metrics metrics_NullFactory;
            config_Injector HTTPHeaders zipkinPropagator;
            config_Extractor HTTPHeaders zipkinPropagator;
            config_ZipkinSharedRPCSpan true ] ) ].
Proof.
  intros Henv Hreporter. unfold trace, InitGlobalTracer; cbn.
  destruct (answer I config_FromEnv s) as [[? ?] s0]; cbn in *.
  injection Henv as -> ->. cbn. rewrite Hreporter. cbn.
  do 2 answer_step. destruct x0 as [closer [e|]]; cbn.
  - answer_step. eauto.
  - eauto.
Qed.

(** What [InitGlobalTracer] hands back and logs is decided by
    [cfg.InitGlobalTracer] alone: the error of [config.FromEnv] has no part
    in it. *)
Lemma InitGlobalTracer_result
    (I : Impl) (s : St I) (service : string)
    (cfg : config_Configuration) (reporter : config_ReporterConfig)
    (err : option error) :
  (answer I config_FromEnv s).1 = (Some cfg, err) →
  Reporter cfg = Some reporter →
  ∃ (closer : option Closer) (err' : option error),
    outcome I (InitGlobalTracer service) s = Returns (closer, err') ∧
    printfs (trace I (InitGlobalTracer service) s) =
      match err' with
      | Some e => [(Could_not_initialize, [arg_string (error_Error e)])]
      | None => []
      end.
Proof.
  intros Henv Hreporter. unfold outcome, trace, InitGlobalTracer; cbn.
  destruct (answer I config_FromEnv s) as [[? ?] s0]; cbn in *.
  injection Henv as -> ->. cbn. rewrite Hreporter. cbn.
  do 2 answer_step. destruct x0 as [closer [e|]]; cbn.
  - answer_step. eauto.
  - eauto.
Qed.

(** C3, on the code: when [config.FromEnv] fails, handing back an error and
    a nil configuration, [InitGlobalTracer] makes no further call (it writes
    no log line) and hands nothing back: it panics on the nil pointer at
    line 26. *)
Theorem InitGlobalTracer_env_failure
    (I : Impl) (s : St I) (service : string) (e : error) :
  (answer I config_FromEnv s).1 = (None, Some e) →
  run I (InitGlobalTracer service) s =
    (Panics nil_pointer_dereference,
     (answer I config_FromEnv s).2,
     [Ev config_FromEnv (None, Some e)]).
Proof.
  intros Henv. unfold InitGlobalTracer; cbn.
  destruct (answer I config_FromEnv s) as [[? ?] s0]; cbn in *.
  by injection Henv as -> ->.
Qed.

(** *** The middleware leaves the application alone *)

(** When the instrumentation calls do not touch the part [app] of the state
    that the handler works on, and the handler sees nothing but that part,
    the traced middleware ends as the bare handler does and leaves that part
    as the bare handler does. *)
Lemma TracingMiddleware_frame_state {App : Type}
    (I : Impl) (app : St I → App) (s : St I)
    (next : Handler) (w : ResponseWriter) (r : http_Request) :
  Contains (Path (URL r)) "health" = false →
  (∀ X (c : Ext X) (s : St I),
     instrumentation c = true → app (answer I c s).2 = app s) →
  (∀ s1 s2 : St I, app s1 = app s2 →
     (answer I (Handler_ServeHTTP next w r) s1).1 =
       (answer I (Handler_ServeHTTP next w r) s2).1 ∧
     app (answer I (Handler_ServeHTTP next w r) s1).2 =
       app (answer I (Handler_ServeHTTP next w r) s2).2) →
  outcome I (TracingMiddleware next w r) s =
    outcome I (invoke (Handler_ServeHTTP next w r)) s ∧
  app (final I (TracingMiddleware next w r) s) =
    app (final I (invoke (Handler_ServeHTTP next w r)) s).
Proof.
  intros Hpath Hinstr Hhandler.
  assert (Hstep : ∀ X (c : Ext X) (s0 s1 : St I) (x : X),
             instrumentation c = true → answer I c s0 = (x, s1) →
             app s1 = app s0).
  { intros X c s0 s1 x Hc E. specialize (Hinstr X c s0 Hc). by rewrite E in Hinstr. }
  assert (Hcall : ∀ (s0 s1 s2 s3 : St I) res res',
             answer I (Handler_ServeHTTP next w r) s0 = (res, s1) →
             answer I (Handler_ServeHTTP next w r) s2 = (res', s3) →
             app s0 = app s2 → res = res' ∧ app s1 = app s3).
  { intros s0 s1 s2 s3 res res' E E' Happ.
    specialize (Hhandler s0 s2 Happ). by rewrite E, E' in Hhandler. }
  unfold outcome, final, trace, TracingMiddleware; rewrite Hpath; cbn.
  destruct (answer I (Handler_ServeHTTP next w r) s) as [res0 sh0] eqn:Ebare.
  do 3 answer_step.
  destruct x1 as [[c|] [e|]]; cbn; repeat answer_step;
    repeat match goal with
           | E : answer I ?c ?s0 = (_, _) |- _ =>
               lazymatch c with
               | Handler_ServeHTTP _ _ _ => fail
               | _ => apply (Hstep _ c) in E; [|reflexivity]
               end
           end;
    match goal with
    | E : answer I (Handler_ServeHTTP next w r) ?s0 = (?res, _) |- _ =>
        lazymatch s0 with
        | s => fail
        | _ => destruct (Hcall _ _ _ _ _ _ E Ebare) as [-> Happ];
               [congruence|]
        end
    end;
    destruct res0 as [[]|v]; cbn in *; repeat answer_step;
    repeat match goal with
           | E : answer I ?c ?s0 = (_, _) |- _ =>
               lazymatch c with
               | Handler_ServeHTTP _ _ _ => fail
               | _ => apply (Hstep _ c) in E; [|reflexivity]
               end
           end;
    (split; [reflexivity | congruence]).
Qed.

(** *** Further properties of [TracingMiddleware] *)

(** The calls of the traced branch, in order: the log line, the read of the
    global tracer, [Extract] on the headers of the request; a warning when
    [Extract] handed back an error and a line showing the context when it
    handed back one; [StartSpan] on the same tracer, named after the path,
    with the context as the client of the server option; the start marker;
    the handler; when the handler returns, the finish marker and the closing
    log line; [Finish]. *)
Theorem TracingMiddleware_call_order
    (I : Impl) (s : St I)
    (next : Handler) (w : ResponseWriter) (r : http_Request) :
  Contains (Path (URL r)) "health" = false →
  ∃ (t : Tracer) (wireContext : option SpanContext) (err : option error)
    (sp : Span) (res : CallResult unit),
    trace I (TracingMiddleware next w r) s =
      [ Ev (log_Printf INFO_beginning [arg_string (Path (URL r))]) ();
        Ev opentracing_GlobalTracer t;
        Ev (Tracer_Extract t HTTPHeaders (Header r)) (wireContext, err) ] ++
      match err with
      | Some e => [Ev (log_Printf WARN_Extract_failed [arg_error e]) ()]
      | None => []
      end ++
      match wireContext with
      | Some c => [Ev (log_Printf INFO_WireContext [arg_SpanContext c]) ()]
      | None => []
      end ++
      [ Ev (Tracer_StartSpan t (Path (URL r))
              [ext_RPCServerOption wireContext]) sp;
        Ev (Span_LogFields sp
              [otlog_String "event" (Path (URL r));
               otlog_String "value" "start"]) ();
        Ev (Handler_ServeHTTP next w r) res ] ++
      match res with
      | Returned _ =>
          [ Ev (Span_LogFields sp
                  [otlog_String "event" (Path (URL r));
                   otlog_String "value" "finish"]) ();
            Ev (log_Print INFO_complete) () ]
      | Panicked _ => []
      end ++
      [Ev (Span_Finish sp) ()].
Proof.
  intros Hpath. traced_branch Hpath;
    match goal with
    | |- context [Ev (Tracer_Extract ?t _ _) (?wireContext, ?err)] =>
        match goal with
        | |- context [Ev (Tracer_StartSpan t _ _) ?sp] =>
            match goal with
            | |- context [Ev (Handler_ServeHTTP next w r) ?res] =>
                exists t, wireContext, err, sp, res
            end
        end
    end; reflexivity.
Qed.

(** When [Extract] finds a context and reports no error, no warning is
    logged, the context is logged, and the server span is started as a child
    of that context. *)
Theorem TracingMiddleware_extract_success
    (I : Impl) (s : St I)
    (next : Handler) (w : ResponseWriter) (r : http_Request)
    (c : SpanContext) :
  Contains (Path (URL r)) "health" = false →
  extractions (trace I (TracingMiddleware next w r) s) =
    [(HTTPHeaders, Header r, (Some c, None))] →
  ∃ sp : Span,
    printfs (trace I (TracingMiddleware next w r) s) =
      [ (INFO_beginning, [arg_string (Path (URL r))]);
        (INFO_WireContext, [arg_SpanContext c]) ] ∧
    span_starts (trace I (TracingMiddleware next w r) s) =
      [(Path (URL r), [ext_RPCServerOption (Some c)], sp)] ∧
    parent_of [ext_RPCServerOption (Some c)] = Some c.
Proof.
  intros Hpath. traced_branch Hpath; intros [= <-] || intros [=];
    eexists; (repeat split; reflexivity).
Qed.

(** The error of [Extract] does not decide the parent: when [Extract] hands
    back both a context and an error, the warning is logged and the span is
    still started as a child of that context. *)
Theorem TracingMiddleware_context_with_error
    (I : Impl) (s : St I)
    (next : Handler) (w : ResponseWriter) (r : http_Request)
    (c : SpanContext) (e : error) :
  Contains (Path (URL r)) "health" = false →
  extractions (trace I (TracingMiddleware next w r) s) =
    [(HTTPHeaders, Header r, (Some c, Some e))] →
  ∃ sp : Span,
    printfs (trace I (TracingMiddleware next w r) s) =
      [ (INFO_beginning, [arg_string (Path (URL r))]);
        (WARN_Extract_failed, [arg_error e]);
        (INFO_WireContext, [arg_SpanContext c]) ] ∧
    span_starts (trace I (TracingMiddleware next w r) s) =
      [(Path (URL r), [ext_RPCServerOption (Some c)], sp)].
Proof.
  intros Hpath. traced_branch Hpath; intros [= <- <-] || intros [=];
    eexists; (repeat split; reflexivity).
Qed.

(** When the wrapped handler panics, the middleware panics with the same
    value; the span has its start marker and no finish marker, the closing
    log line is not written, and the span is finished all the same, as the
    last call. *)
Theorem TracingMiddleware_handler_panic
    (I : Impl) (s : St I)
    (next : Handler) (w : ResponseWriter) (r : http_Request)
    (v : PanicValue) :
  Contains (Path (URL r)) "health" = false →
  served (trace I (TracingMiddleware next w r) s) =
    [(next, w, r, Panicked v)] →
  ∃ sp : Span,
    outcome I (TracingMiddleware next w r) s = Panics v ∧
    span_log_fields (trace I (TracingMiddleware next w r) s) =
      [(sp, [otlog_String "event" (Path (URL r));
             otlog_String "value" "start"])] ∧
    prints (trace I (TracingMiddleware next w r) s) = [] ∧
    span_finishes (trace I (TracingMiddleware next w r) s) = [sp] ∧
    last (trace I (TracingMiddleware next w r) s) =
      Some (Ev (Span_Finish sp) ()).
Proof.
  intros Hpath. traced_branch Hpath; intros [= <-] || intros [=];
    eexists; (repeat split; reflexivity).
Qed.

(** When the wrapped handler returns, the middleware returns; the span has
    its start marker and then its finish marker, both carrying the path, and
    the closing log line is written once. *)
Theorem TracingMiddleware_handler_returns
    (I : Impl) (s : St I)
    (next : Handler) (w : ResponseWriter) (r : http_Request) :
  Contains (Path (URL r)) "health" = false →
  served (trace I (TracingMiddleware next w r) s) =
    [(next, w, r, Returned ())] →
  ∃ sp : Span,
    outcome I (TracingMiddleware next w r) s = Returns () ∧
    span_log_fields (trace I (TracingMiddleware next w r) s) =
      [ (sp, [otlog_String "event" (Path (URL r));
              otlog_String "value" "start"]);
        (sp, [otlog_String "event" (Path (URL r));
              otlog_String "value" "finish"]) ] ∧
    prints (trace I (TracingMiddleware next w r) s) = [INFO_complete] ∧
    span_finishes (trace I (TracingMiddleware next w r) s) = [sp].
Proof.
  intros Hpath. traced_branch Hpath; intros [=];
    eexists; (repeat split; reflexivity).
Qed.

(** A request goes untraced exactly when "health" occurs somewhere in its
    path: as a segment, inside a longer word, at any depth. *)
Theorem TracingMiddleware_untraced_iff
    (I : Impl) (s : St I)
    (next : Handler) (w : ResponseWriter) (r : http_Request) :
  span_starts (trace I (TracingMiddleware next w r) s) = [] ↔
  ∃ before after : string, Path (URL r) = before +:+ "health" +:+ after.
Proof.
  rewrite <- Contains_spec.
  destruct (Contains (Path (URL r)) "health") eqn:Hpath.
  - split; [done|]. intros _.
    unfold trace, TracingMiddleware. rewrite Hpath. cbn.
    answer_step. by destruct x.
  - split; [|done]. traced_branch Hpath; discriminate.
Qed.

(** *** Further properties of [InjectHeaders] and [RoundTrip] *)

(** [InjectHeaders] changes nothing of the request but its headers: method
    and URL are as given, and the headers are those the one [Inject] call,
    made on the headers of the request in the HTTP-headers format, left. *)
Theorem InjectHeaders_changes_headers_only
    (I : Impl) (s : St I) (r : http_Request) :
  ∃ (r' : http_Request) (t : Tracer) (ctx : SpanContext)
    (err : option error),
    outcome I (InjectHeaders r) s = Returns r' ∧
    Method r' = Method r ∧
    URL r' = URL r ∧
    injections (trace I (InjectHeaders r) s) =
      [(t, ctx, HTTPHeaders, Header r, (Header r', err))].
Proof.
  run_to_end. by eexists (set_Header r _), _, _, _.
Qed.

(** An error of [Inject] is dropped: [InjectHeaders] returns as it would on
    success, with the carrier as [Inject] left it, the error is in no log
    line, and the span is finished. *)
Theorem InjectHeaders_inject_error_dropped
    (I : Impl) (s : St I) (r : http_Request)
    (t : Tracer) (ctx : SpanContext) (carrier : http_Header) (e : error) :
  injections (trace I (InjectHeaders r) s) =
    [(t, ctx, HTTPHeaders, Header r, (carrier, Some e))] →
  ∃ (sp : Span) (ctx0 : SpanContext),
    outcome I (InjectHeaders r) s = Returns (set_Header r carrier) ∧
    printfs (trace I (InjectHeaders r) s) =
      [(INFO_span_Context, [arg_SpanContext ctx0])] ∧
    prints (trace I (InjectHeaders r) s) = [] ∧
    span_finishes (trace I (InjectHeaders r) s) = [sp].
Proof.
  run_to_end. intros Hinj. simplify_eq. by do 2 eexists.
Qed.

(** The span of [RoundTrip] is closed before the transport is called: the
    last two calls are [Finish] on the one span started and the call of the
    wrapped transport, nothing is started or finished around them, and the
    request the transport gets has the method and URL of the one given.
    This holds however the transport ends, and whether or not [Inject]
    reported an error. *)
Theorem RoundTrip_span_closed_before_transport
    (I : Impl) (s : St I) (trt : TracingRoundTripper) (req : http_Request) :
  ∃ (pre : list Event) (sp : Span) (req' : http_Request)
    (res : CallResult (option Response * option error)),
    trace I (RoundTrip trt req) s =
      pre ++ [ Ev (Span_Finish sp) ();
               Ev (RoundTripper_RoundTrip (Proxied trt) req') res ] ∧
    span_starts (trace I (RoundTrip trt req) s) =
      [(Path (URL req), [], sp)] ∧
    span_finishes (trace I (RoundTrip trt req) s) = [sp] ∧
    span_finishes pre = [] ∧
    round_trips pre = [] ∧
    Method req' = Method req ∧
    URL req' = URL req.
Proof.
  unfold RoundTrip. run_to_end.
  repeat match goal with x : CallResult _ |- _ => destruct x; cbn end.
  all: eexists (_ :: _ :: _ :: _ :: _ :: _ :: _ :: _ :: _ :: _ :: [_]),
         _, _, _; repeat split; reflexivity.
Qed.

(** *** Further properties of [InitGlobalTracer] *)

(** With a configuration loaded, [InitGlobalTracer] makes three calls
    ([config.FromEnv], the propagator, [cfg.InitGlobalTracer]) and hands back
    the closer and the error of the last one as they are.  It writes the
    "Could not initialize" line, with the text of that error, exactly when
    that error is not nil.  An error that [config.FromEnv] handed back along
    with the configuration is neither logged nor returned. *)
Theorem InitGlobalTracer_returns_init_result
    (I : Impl) (s : St I) (service : string)
    (cfg : config_Configuration) (reporter : config_ReporterConfig)
    (err : option error) :
  (answer I config_FromEnv s).1 = (Some cfg, err) →
  Reporter cfg = Some reporter →
  ∃ (zipkinPropagator : Propagator) (cfg' : config_Configuration)
    (options : list config_Option)
    (closer : option Closer) (err' : option error),
    trace I (InitGlobalTracer service) s =
      [ Ev config_FromEnv (Some cfg, err);
        Ev zipkin_NewZipkinB3HTTPHeaderPropagator zipkinPropagator;
        Ev (Configuration_InitGlobalTracer cfg' service options)
           (closer, err') ] ++
      match err' with
      | Some e =>
          [Ev (log_Printf Could_not_initialize [arg_string (error_Error e)])
              ()]
      | None => []
      end ∧
    outcome I (InitGlobalTracer service) s = Returns (closer, err').
Proof.
  intros Henv Hreporter. unfold outcome, trace, InitGlobalTracer; cbn.
  destruct (answer I config_FromEnv s) as [[? ?] s0]; cbn in *.
  injection Henv as -> ->. cbn. rewrite Hreporter. cbn.
  do 2 answer_step.
  match goal with x : (option Closer * option error)%type |- _ =>
    destruct x as [closer [e|]]; cbn
  end.
  - answer_step. destruct x0. by eexists _, _, _, closer, (Some e).
  - by eexists _, _, _, closer, None.
Qed.

End Properties.

(** ** The properties at work on the recording implementation *)

Section Scenarios.
#[local] Existing Instance Mock.external.

Lemma TracingMiddleware_health_bypass_witness :
  Contains "/health/live" "health" = true ∧
  run Mock.impl
    (TracingMiddleware (Mock.respond 200 "ok") 7 Mock.health_live) Mock.boot =
  run Mock.impl
    (invoke (Handler_ServeHTTP (Mock.respond 200 "ok") 7 Mock.health_live))
    Mock.boot ∧
  span_starts
    (trace Mock.impl
       (TracingMiddleware (Mock.respond 200 "ok") 7 Mock.health_live)
       Mock.boot) = [].
Proof.
  split; [reflexivity|].
  destruct (TracingMiddleware_health_bypass (H := Mock.external)
              (Mock.respond 200 "ok") 7 Mock.health_live) as [_ Hruns];
    [reflexivity|].
  destruct (Hruns Mock.impl Mock.boot) as (Hrun & _ & Hstarts & _).
  split; assumption.
Defined.

(** The handler panics and the span is finished all the same. *)
Lemma TracingMiddleware_one_span_witness :
  Contains "/orders/42" "health" = false ∧
  ∃ (opts : list StartSpanOption) (sp : Span) (res : CallResult unit),
    span_starts
      (trace Mock.impl
         (TracingMiddleware (Mock.crash "boom") 7 Mock.orders_42) Mock.boot) =
      [("/orders/42", opts, sp)] ∧
    span_finishes
      (trace Mock.impl
         (TracingMiddleware (Mock.crash "boom") 7 Mock.orders_42) Mock.boot) =
      [sp] ∧
    last
      (trace Mock.impl
         (TracingMiddleware (Mock.crash "boom") 7 Mock.orders_42) Mock.boot) =
      Some (Ev (Span_Finish sp) ()) ∧
    served
      (trace Mock.impl
         (TracingMiddleware (Mock.crash "boom") 7 Mock.orders_42) Mock.boot) =
      [(Mock.crash "boom", 7, Mock.orders_42, res)] ∧
    outcome Mock.impl
      (TracingMiddleware (Mock.crash "boom") 7 Mock.orders_42) Mock.boot =
      outcome_of res.
Proof.
  split; [reflexivity|].
  apply (TracingMiddleware_one_span Mock.impl Mock.boot
           (Mock.crash "boom") 7 Mock.orders_42).
  reflexivity.
Defined.


Lemma TracingMiddleware_frame_witness :
  Contains "/orders/42" "health" = false ∧
  ∃ res : CallResult unit,
    application_calls
      (trace Mock.impl
         (TracingMiddleware (Mock.respond 404 "no such order") 7
            Mock.orders_42) Mock.boot) =
      [Ev (Handler_ServeHTTP (Mock.respond 404 "no such order") 7
             Mock.orders_42) res] ∧
    served
      (trace Mock.impl
         (TracingMiddleware (Mock.respond 404 "no such order") 7
            Mock.orders_42) Mock.boot) =
      [(Mock.respond 404 "no such order", 7, Mock.orders_42, res)] ∧
    outcome Mock.impl
      (TracingMiddleware (Mock.respond 404 "no such order") 7 Mock.orders_42)
      Mock.boot = outcome_of res.
Proof.
  split; [reflexivity|].
  apply (TracingMiddleware_frame Mock.impl Mock.boot
           (Mock.respond 404 "no such order") 7 Mock.orders_42).
  reflexivity.
Defined.

Lemma InitGlobalTracer_overrides_witness :
  (answer Mock.impl config_FromEnv Mock.boot).1 = (Some Mock.loaded, None) ∧
  Reporter Mock.loaded = Some Mock.loaded_reporter ∧
  ∃ zipkinPropagator : Propagator,
    tracer_inits (trace Mock.impl (InitGlobalTracer "payments") Mock.boot) =
      [ ( {| Sampler := Some {| Type_ := "const"; Param := 1 |};
             Reporter := Some {| LogSpans := true; reporter_rest := () |};
             configuration_rest := () |},
          "payments",
          [ config_Logger jaegerlog_StdLogger;
            config_Metrics metrics_NullFactory;
            config_Injector HTTPHeaders zipkinPropagator;
            config_Extractor HTTPHeaders zipkinPropagator;
            config_ZipkinSharedRPCSpan true ] ) ].
Proof.
  split; [reflexivity|]. split; [reflexivity|].
  apply (InitGlobalTracer_overrides Mock.impl Mock.boot "payments"
           Mock.loaded Mock.loaded_reporter None);
    reflexivity.
Defined.

Lemma InitGlobalTracer_env_failure_witness :
  (answer Mock.impl config_FromEnv Mock.broken_environment).1 =
    (None, Some "cannot parse env var JAEGER_RPC_METRICS=maybe") ∧
  run Mock.impl (InitGlobalTracer "payments") Mock.broken_environment =
    (Panics nil_pointer_dereference,
     (answer Mock.impl config_FromEnv Mock.broken_environment).2,
     [Ev config_FromEnv
         (None, Some "cannot parse env var JAEGER_RPC_METRICS=maybe")]).
Proof.
  split; [reflexivity|].
  apply (InitGlobalTracer_env_failure Mock.impl Mock.broken_environment
           "payments" "cannot parse env var JAEGER_RPC_METRICS=maybe").
  reflexivity.
Defined.

(** The path test is a plain, case-sensitive substring test. *)
Example Contains_examples :
  Contains "/health/live" "health" = true ∧
  Contains "/api/v1/healthz" "health" = true ∧
  Contains "/orders/42" "health" = false ∧
  Contains "/Health" "health" = false ∧
  Contains "" "health" = false.
Proof. repeat split. Qed.

(** A request to [/health/live]: the handler is called, nothing else. *)
Example scenario_health_live :
  run Mock.impl
    (TracingMiddleware (Mock.respond 200 "ok") 7 Mock.health_live) Mock.boot =
  (Returns (),
   Mock.write Mock.boot 7 200 "ok",
   [Ev (Handler_ServeHTTP (Mock.respond 200 "ok") 7 Mock.health_live)
       (Returned ())]).
Proof. reflexivity. Qed.

(** A request to [/orders/42] without trace headers. *)
Example scenario_orders_42 :
  trace Mock.impl
    (TracingMiddleware (Mock.respond 200 "ok") 7 Mock.orders_42) Mock.boot =
  [ Ev (log_Printf
          "INFO: TracingMiddleware beginning for %s---------------------------"
          [arg_string "/orders/42"]) ();
    Ev opentracing_GlobalTracer ();
    Ev (Tracer_Extract () HTTPHeaders ∅)
       (None, Some "opentracing: SpanContext not found in Extract carrier");
    Ev (log_Printf WARN_Extract_failed
          [arg_error "opentracing: SpanContext not found in Extract carrier"])
       ();
    Ev (Tracer_StartSpan () "/orders/42" [ext_RPCServerOption None])
       ("1", "1");
    Ev (Span_LogFields ("1", "1")
          [otlog_String "event" "/orders/42"; otlog_String "value" "start"])
       ();
    Ev (Handler_ServeHTTP (Mock.respond 200 "ok") 7 Mock.orders_42)
       (Returned ());
    Ev (Span_LogFields ("1", "1")
          [otlog_String "event" "/orders/42"; otlog_String "value" "finish"])
       ();
    Ev (log_Print
          "INFO: TracingMiddleware complete----------------------------------------------")
       ();
    Ev (Span_Finish ("1", "1")) () ].
Proof. reflexivity. Qed.

(** The same request when the handler panics: the two calls after the
    handler are skipped, the deferred [Finish] is not, and the panic goes
    on. *)
Example scenario_orders_42_panic :
  outcome Mock.impl
    (TracingMiddleware (Mock.crash "boom") 7 Mock.orders_42) Mock.boot =
    Panics (panic_value "boom") ∧
  span_finishes
    (trace Mock.impl
       (TracingMiddleware (Mock.crash "boom") 7 Mock.orders_42) Mock.boot) =
    [("1", "1")] ∧
  length
    (trace Mock.impl
       (TracingMiddleware (Mock.crash "boom") 7 Mock.orders_42) Mock.boot) =
    8%nat.
Proof. repeat split. Qed.

(** A request that carries B3 headers: the server span gets the context found
    in them as its parent. *)
Example scenario_orders_42_with_parent :
  span_starts
    (trace Mock.impl
       (TracingMiddleware (Mock.respond 200 "ok") 7
          (Mock.request "GET" "/orders/42" (Mock.inject ("a1", "b2") ∅)))
       Mock.boot) =
  [("/orders/42", [ext_RPCServerOption (Some ("a1", "b2"))], ("a1", "1"))].
Proof. vm_compute. reflexivity. Qed.

(** An outbound [POST] to [/payments/charge] through the round tripper: the
    span is finished before the transport is called, and the transport gets
    the request with the B3 headers of that span. *)
Example scenario_payments_charge :
  ∃ req' : http_Request,
    trace Mock.impl
      (RoundTrip {| Proxied := Mock.reply 201 |} Mock.payments_charge)
      Mock.boot =
    [ Ev (log_Print INFO_injecting_headers) ();
      Ev opentracing_GlobalTracer ();
      Ev (Tracer_StartSpan () "/payments/charge" []) ("1", "1");
      Ev (Span_Context ("1", "1")) ("1", "1");
      Ev (log_Printf "INFO: span.Context is %v" [arg_SpanContext ("1", "1")])
         ();
      Ev (ext_SpanKindRPCClient_Set ("1", "1")) ();
      Ev (ext_HTTPUrl_Set ("1", "1") "/payments/charge") ();
      Ev (ext_HTTPMethod_Set ("1", "1") "POST") ();
      Ev (Span_Tracer ("1", "1")) ();
      Ev (Span_Context ("1", "1")) ("1", "1");
      Ev (Tracer_Inject () ("1", "1") HTTPHeaders ∅)
         (Mock.inject ("1", "1") ∅, None);
      Ev (Span_Finish ("1", "1")) ();
      Ev (RoundTripper_RoundTrip (Mock.reply 201) req')
         (Returned (Some 201%Z, None)) ] ∧
    Header req' !! "X-B3-Traceid" = Some ["1"] ∧
    Header req' !! "X-B3-Spanid" = Some ["1"] ∧
    Method req' = "POST" ∧
    outcome Mock.impl
      (RoundTrip {| Proxied := Mock.reply 201 |} Mock.payments_charge)
      Mock.boot = Returns (Some 201%Z, None).
Proof.
  exists (set_Header Mock.payments_charge (Mock.inject ("1", "1") ∅)).
  repeat split.
Qed.

(** The error of the transport comes back as it is. *)
Example scenario_transport_error :
  outcome Mock.impl
    (RoundTrip {| Proxied := Mock.refuse "connection refused" |}
       Mock.payments_charge)
    Mock.boot = Returns (None, Some "connection refused").
Proof. reflexivity. Qed.

(** [InitGlobalTracer] when building the tracer fails: the error is logged
    and handed back. *)
Example scenario_init_error :
  outcome Mock.impl (InitGlobalTracer "") Mock.boot =
    Returns (None, Some "no service name provided") ∧
  printfs (trace Mock.impl (InitGlobalTracer "") Mock.boot) =
    [(Could_not_initialize, [arg_string "no service name provided"])].
Proof. repeat split. Qed.

(** *** The further properties at work *)

Lemma TracingMiddleware_call_order_witness :
  Contains "/orders/42" "health" = false ∧
  ∃ (t : Tracer) (wireContext : option SpanContext) (err : option error)
    (sp : Span) (res : CallResult unit),
    trace Mock.impl
      (TracingMiddleware (Mock.respond 200 "ok") 7 Mock.orders_42)
      Mock.boot =
      [ Ev (log_Printf INFO_beginning [arg_string "/orders/42"]) ();
        Ev opentracing_GlobalTracer t;
        Ev (Tracer_Extract t HTTPHeaders ∅) (wireContext, err) ] ++
      match err with
      | Some e => [Ev (log_Printf WARN_Extract_failed [arg_error e]) ()]
      | None => []
      end ++
      match wireContext with
      | Some c => [Ev (log_Printf INFO_WireContext [arg_SpanContext c]) ()]
      | None => []
      end ++
      [ Ev (Tracer_StartSpan t "/orders/42"
              [ext_RPCServerOption wireContext]) sp;
        Ev (Span_LogFields sp
              [otlog_String "event" "/orders/42";
               otlog_String "value" "start"]) ();
        Ev (Handler_ServeHTTP (Mock.respond 200 "ok") 7 Mock.orders_42) res ]
      ++
      match res with
      | Returned _ =>
          [ Ev (Span_LogFields sp
                  [otlog_String "event" "/orders/42";
                   otlog_String "value" "finish"]) ();
            Ev (log_Print INFO_complete) () ]
      | Panicked _ => []
      end ++
      [Ev (Span_Finish sp) ()].
Proof.
  split; [reflexivity|].
  apply (TracingMiddleware_call_order Mock.impl Mock.boot
           (Mock.respond 200 "ok") 7 Mock.orders_42).
  reflexivity.
Defined.

Lemma TracingMiddleware_extract_success_witness :
  Contains "/orders/42" "health" = false ∧
  extractions
    (trace Mock.impl
       (TracingMiddleware (Mock.respond 200 "ok") 7 Inputs.orders_42_from_a1)
       Mock.boot) =
    [(HTTPHeaders, Header Inputs.orders_42_from_a1, (Some ("a1", "b2"), None))] ∧
  ∃ sp : Span,
    printfs
      (trace Mock.impl
         (TracingMiddleware (Mock.respond 200 "ok") 7 Inputs.orders_42_from_a1)
         Mock.boot) =
      [ (INFO_beginning, [arg_string "/orders/42"]);
        (INFO_WireContext, [arg_SpanContext ("a1", "b2")]) ] ∧
    span_starts
      (trace Mock.impl
         (TracingMiddleware (Mock.respond 200 "ok") 7 Inputs.orders_42_from_a1)
         Mock.boot) =
      [("/orders/42", [ext_RPCServerOption (Some ("a1", "b2"))], sp)] ∧
    parent_of [ext_RPCServerOption (Some ("a1", "b2"))] = Some ("a1", "b2").
Proof.
  split; [reflexivity|]. split; [vm_compute; reflexivity|].
  apply (TracingMiddleware_extract_success Mock.impl Mock.boot
           (Mock.respond 200 "ok") 7 Inputs.orders_42_from_a1 ("a1", "b2"));
    [reflexivity | vm_compute; reflexivity].
Defined.

Lemma TracingMiddleware_context_with_error_witness :
  Contains "/orders/42" "health" = false ∧
  extractions
    (trace Faulty.impl
       (TracingMiddleware (Mock.respond 200 "ok") 7 Mock.orders_42)
       Mock.boot) =
    [(HTTPHeaders, ∅,
      (Some ("0", "0"),
       Some "opentracing: SpanContext not found in Extract carrier"))] ∧
  ∃ sp : Span,
    printfs
      (trace Faulty.impl
         (TracingMiddleware (Mock.respond 200 "ok") 7 Mock.orders_42)
         Mock.boot) =
      [ (INFO_beginning, [arg_string "/orders/42"]);
        (WARN_Extract_failed,
         [arg_error "opentracing: SpanContext not found in Extract carrier"]);
        (INFO_WireContext, [arg_SpanContext ("0", "0")]) ] ∧
    span_starts
      (trace Faulty.impl
         (TracingMiddleware (Mock.respond 200 "ok") 7 Mock.orders_42)
         Mock.boot) =
      [("/orders/42", [ext_RPCServerOption (Some ("0", "0"))], sp)].
Proof.
  split; [reflexivity|]. split; [reflexivity|].
  apply (TracingMiddleware_context_with_error Faulty.impl Mock.boot
           (Mock.respond 200 "ok") 7 Mock.orders_42 ("0", "0")
           "opentracing: SpanContext not found in Extract carrier");
    reflexivity.
Defined.

Lemma TracingMiddleware_handler_panic_witness :
  Contains "/orders/42" "health" = false ∧
  served
    (trace Mock.impl
       (TracingMiddleware (Mock.crash "boom") 7 Mock.orders_42) Mock.boot) =
    [(Mock.crash "boom", 7, Mock.orders_42, Panicked Inputs.boom)] ∧
  ∃ sp : Span,
    outcome Mock.impl
      (TracingMiddleware (Mock.crash "boom") 7 Mock.orders_42) Mock.boot =
      Panics Inputs.boom ∧
    span_log_fields
      (trace Mock.impl
         (TracingMiddleware (Mock.crash "boom") 7 Mock.orders_42) Mock.boot) =
      [(sp, [otlog_String "event" "/orders/42";
             otlog_String "value" "start"])] ∧
    prints
      (trace Mock.impl
         (TracingMiddleware (Mock.crash "boom") 7 Mock.orders_42) Mock.boot) =
      [] ∧
    span_finishes
      (trace Mock.impl
         (TracingMiddleware (Mock.crash "boom") 7 Mock.orders_42) Mock.boot) =
      [sp] ∧
    last
      (trace Mock.impl
         (TracingMiddleware (Mock.crash "boom") 7 Mock.orders_42) Mock.boot) =
      Some (Ev (Span_Finish sp) ()).
Proof.
  split; [reflexivity|]. split; [reflexivity|].
  apply (TracingMiddleware_handler_panic Mock.impl Mock.boot
           (Mock.crash "boom") 7 Mock.orders_42 Inputs.boom);
    reflexivity.
Defined.

(** The handler writes a 500 and returns. *)
Lemma TracingMiddleware_handler_returns_witness :
  Contains "/orders/42" "health" = false ∧
  served
    (trace Mock.impl
       (TracingMiddleware (Mock.respond 500 "oops") 7 Mock.orders_42)
       Mock.boot) =
    [(Mock.respond 500 "oops", 7, Mock.orders_42, Returned ())] ∧
  ∃ sp : Span,
    outcome Mock.impl
      (TracingMiddleware (Mock.respond 500 "oops") 7 Mock.orders_42)
      Mock.boot = Returns () ∧
    span_log_fields
      (trace Mock.impl
         (TracingMiddleware (Mock.respond 500 "oops") 7 Mock.orders_42)
         Mock.boot) =
      [ (sp, [otlog_String "event" "/orders/42";
              otlog_String "value" "start"]);
        (sp, [otlog_String "event" "/orders/42";
              otlog_String "value" "finish"]) ] ∧
    prints
      (trace Mock.impl
         (TracingMiddleware (Mock.respond 500 "oops") 7 Mock.orders_42)
         Mock.boot) = [INFO_complete] ∧
    span_finishes
      (trace Mock.impl
         (TracingMiddleware (Mock.respond 500 "oops") 7 Mock.orders_42)
         Mock.boot) = [sp].
Proof.
  split; [reflexivity|]. split; [reflexivity|].
  apply (TracingMiddleware_handler_returns Mock.impl Mock.boot
           (Mock.respond 500 "oops") 7 Mock.orders_42);
    reflexivity.
Defined.

Lemma InjectHeaders_inject_error_dropped_witness :
  injections
    (trace Faulty.impl (InjectHeaders Mock.payments_charge) Mock.boot) =
    [((), ("1", "1"), HTTPHeaders, ∅, (∅, Some Faulty.unsupported))] ∧
  ∃ (sp : Span) (ctx0 : SpanContext),
    outcome Faulty.impl (InjectHeaders Mock.payments_charge) Mock.boot =
      Returns (set_Header Mock.payments_charge ∅) ∧
    printfs
      (trace Faulty.impl (InjectHeaders Mock.payments_charge) Mock.boot) =
      [(INFO_span_Context, [arg_SpanContext ctx0])] ∧
    prints
      (trace Faulty.impl (InjectHeaders Mock.payments_charge) Mock.boot) =
      [] ∧
    span_finishes
      (trace Faulty.impl (InjectHeaders Mock.payments_charge) Mock.boot) =
      [sp].
Proof.
  split; [reflexivity|].
  apply (InjectHeaders_inject_error_dropped Faulty.impl Mock.boot
           Mock.payments_charge () ("1", "1") ∅ Faulty.unsupported).
  reflexivity.
Defined.

(** Building the tracer fails: the service name is empty. *)
Lemma InitGlobalTracer_returns_init_result_witness :
  (answer Mock.impl config_FromEnv Mock.boot).1 = (Some Mock.loaded, None) ∧
  Reporter Mock.loaded = Some Mock.loaded_reporter ∧
  ∃ (zipkinPropagator : Propagator) (cfg' : config_Configuration)
    (options : list config_Option)
    (closer : option Closer) (err' : option error),
    trace Mock.impl (InitGlobalTracer "") Mock.boot =
      [ Ev config_FromEnv (Some Mock.loaded, None);
        Ev zipkin_NewZipkinB3HTTPHeaderPropagator zipkinPropagator;
        Ev (Configuration_InitGlobalTracer cfg' "" options) (closer, err') ]
      ++
      match err' with
      | Some e =>
          [Ev (log_Printf Could_not_initialize [arg_string (error_Error e)])
              ()]
      | None => []
      end ∧
    outcome Mock.impl (InitGlobalTracer "") Mock.boot =
      Returns (closer, err').
Proof.
  split; [reflexivity|]. split; [reflexivity|].
  apply (InitGlobalTracer_returns_init_result Mock.impl Mock.boot ""
           Mock.loaded Mock.loaded_reporter None);
    reflexivity.
Defined.

(** The recording implementation keeps what handlers wrote apart from what
    the tracer does. *)
Lemma TracingMiddleware_frame_state_witness :
  Contains "/orders/42" "health" = false ∧
  outcome Mock.impl
    (TracingMiddleware (Mock.respond 404 "no such order") 7 Mock.orders_42)
    Mock.boot =
  outcome Mock.impl
    (invoke (Handler_ServeHTTP (Mock.respond 404 "no such order") 7
               Mock.orders_42))
    Mock.boot ∧
  Mock.written
    (final Mock.impl
       (TracingMiddleware (Mock.respond 404 "no such order") 7 Mock.orders_42)
       Mock.boot) =
  Mock.written
    (final Mock.impl
       (invoke (Handler_ServeHTTP (Mock.respond 404 "no such order") 7
                  Mock.orders_42))
       Mock.boot).
Proof.
  split; [reflexivity|].
  apply (TracingMiddleware_frame_state Mock.impl Mock.written Mock.boot
           (Mock.respond 404 "no such order") 7 Mock.orders_42).
  - reflexivity.
  - intros X c s. destruct c; cbn; solve [reflexivity | discriminate].
  - intros s1 s2 Hwritten. cbn. split; [reflexivity|].
    exact (f_equal (λ l, l ++ [(7, 404%Z, "no such order")]) Hwritten).
Defined.

(** The transport is called even though injection failed, with the headers
    as they were. *)
Example scenario_inject_fails :
  round_trips
    (trace Faulty.impl
       (RoundTrip {| Proxied := Mock.reply 201 |} Mock.payments_charge)
       Mock.boot) =
  [(Mock.reply 201, Mock.payments_charge, Returned (Some 201%Z, None))].
Proof. reflexivity. Qed.

End Scenarios.
